(** * lfc-portlets: the selection rules of the four portlets

    A shallow embedding of [lfc_portlets/models.py].  Every [render] method
    is translated line by line; the collaborators the module imports
    (Django's ORM, template loader and translation machinery,
    django-tagging, the [lfc] content classes, the [random] module) are not
    part of the repository and enter as the fields of a [Framework] record
    or, for the global random generator, as an explicit state. *)

From Stdlib Require Import Ascii.
From stdpp Require Import gmap strings list pretty.

Set Warnings "-clear-no-such-hyp".

(** ** Python values and exceptions *)

(** The exceptions the translated code can raise. *)
Inductive Exception :=
  | AttributeError   (* [None.user] *)
  | IndexError.      (* [x[i]] out of range *)

(** The outcome of a Python call: a value or a raised exception. *)
Inductive result (A : Type) :=
  | Ok (a : A)
  | Raise (e : Exception).
Arguments Ok {A} a.
Arguments Raise {A} e.

#[global] Instance result_ret : MRet result := λ A a, Ok a.
#[global] Instance result_bind : MBind result := λ A B f m,
  match m with
  | Ok a => f a
  | Raise e => Raise e
  end.

(** [django.contrib.auth] users, as far as the portlets look at them. *)
Record User := { username : string; is_superuser : bool }.

(** The request object of the hosting framework. *)
Record Request := { user : User; path : string }.

(** What a render context may hold under a key. *)
Inductive PyValue :=
  | PyNone
  | PyStr (s : string)
  | PyRequest (r : Request).

(** [context.get(key)]: the stored value, [None] when the key is absent. *)
Definition context_get (context : gmap string PyValue) (key : string) : PyValue :=
  default PyNone (context !! key).

(** [request.user]: only a request object has the attribute. *)
Definition getattr_user (request : PyValue) : result User :=
  match request with
  | PyRequest r => Ok (user r)
  | PyNone | PyStr _ => Raise AttributeError
  end.

(** ** The content catalog *)

(** A row of [lfc.models.BaseContent]: the attributes the portlets and the
    tagging query read. *)
Record BaseContent := {
  slug : string;
  language : string;
  content_type : string;
  tag_set : gset string;
}.

(** The entry [lfc.utils.registration.get_info] returns for a registered
    content type. *)
Record Info := { info_name : string; display_select_standard : bool }.

(** The values handed to a template. *)
Inductive TemplateValue :=
  | TStr (s : string)
  | TInt (n : nat)
  | TObjs (l : list BaseContent).

(** The second argument of [render_to_string]: a plain dict, or a
    [RequestContext] built from the request and a dict. *)
Inductive TemplateContext :=
  | Dict (vars : gmap string TemplateValue)
  | RequestContext (request : PyValue) (vars : gmap string TemplateValue).

(** The external collaborators of the module. *)
Record Framework := {
  (** [BaseContent.objects], in the default order of the manager *)
  objects : list BaseContent;
  (** [translation.get_language()] *)
  get_language : string;
  (** django-tagging's reading of a tag string into tag names *)
  parse_tag_input : string → list string;
  (** [obj.get_content_object()] *)
  get_content_object : BaseContent → BaseContent;
  (** [lfc.utils.registration.get_info(obj)], [None] when unregistered *)
  get_info : BaseContent → option Info;
  (** [obj.has_permission(user, codename)] *)
  has_permission : BaseContent → User → string → bool;
  (** [obj.is_active(user)] *)
  is_active : BaseContent → User → bool;
  (** [render_to_string(template_name, context)] *)
  render_to_string : string → TemplateContext → string;
}.

(** [BaseContent.objects.filter(language__in=("0", translation.get_language()))] *)
Definition language_filter (fw : Framework) : list BaseContent :=
  filter (λ o, language o ∈ ["0"; get_language fw]) (objects fw).

(** Modelled from the spec: django-tagging's
    [ModelTaggedItemManager().with_all(tags, queryset)] is not part of this
    repository.  The spec describes it as the catalog query "by tag-set
    conjunction": it keeps, in the order of the queryset, the items that
    possess all the listed tags. *)
Definition with_all (fw : Framework) (tags : string)
    (queryset : list BaseContent) : list BaseContent :=
  filter (λ o, list_to_set (parse_tag_input fw tags) ⊆ tag_set o) queryset.

(** Python's [if s:] on a string. *)
Definition truthy (s : string) : bool := bool_decide (s ≠ "").

(** ** The global random generator *)

(** The state of the [random] module: the sequence of raw draws and the
    number of draws consumed so far.  The sequence is arbitrary, so that
    what holds for every state holds for every state of the generator of
    the interpreter; a sequence chosen at will, on the other hand, need not
    be one that generator can emit. *)
Record Random := { draws : nat → nat; consumed : nat }.

(** [int(random() * n)]: the next draw, brought into [0, n).  The float of
    the source is not modelled; as the draws are arbitrary, every index
    below [n] can come out. *)
Definition randbelow (rnd : Random) (n : nat) : nat * Random :=
  (draws rnd (consumed rnd) `mod` n,
   {| draws := draws rnd; consumed := S (consumed rnd) |}).

(** [x[i], x[j] = x[j], x[i]] *)
Definition swap {A} (x : list A) (i j : nat) : result (list A) :=
  match x !! j, x !! i with
  | Some xj, Some xi => Ok (<[j:=xi]> (<[i:=xj]> x))
  | _, _ => Raise IndexError
  end.

(** The loop of [random.shuffle]; the argument [i] counts the iterations
    left, the loop variable of the source being [i] itself in the body:
    [for i in reversed(xrange(1, len(x))): j = int(random() * (i+1)); swap]. *)
Fixpoint shuffle_loop {A} (i : nat) (x : list A) (rnd : Random)
    : result (list A * Random) :=
  match i with
  | 0 => Ok (x, rnd)
  | S i' =>
      let '(j, rnd) := randbelow rnd (i + 1) in
      x ← swap x i j;
      shuffle_loop i' x rnd
  end.

(** [random.shuffle(x)] *)
Definition shuffle {A} (x : list A) (rnd : Random) : result (list A * Random) :=
  shuffle_loop (length x - 1) x rnd.

(** ** NavigationPortlet *)
Module NavigationPortlet.

Record t := {
  id : nat;
  title : string;
  start_level : nat;
  expand_level : nat;
}.

Definition template := "lfc/portlets/navigation_portlet.html".

(** The dict the template receives. *)
Definition vars (self : t) : gmap string TemplateValue :=
  {[ "start_level" := TInt (start_level self);
     "expand_level" := TInt (expand_level self);
     "title" := TStr (title self) ]}.

Definition render (fw : Framework) (self : t)
    (context : gmap string PyValue) : result string :=
  let request := context_get context "request" in
  Ok (render_to_string fw template (RequestContext request (vars self))).

End NavigationPortlet.

(** ** ContentPortlet *)
Module ContentPortlet.

Record t := {
  id : nat;
  title : string;
  limit : nat;
  tags : string;
}.

Definition template := "lfc/portlets/content_portlet.html".

(** Lines 89 to 95: the language filter, the tag filter when [self.tags]
    is not empty, and the slice [[:self.limit]]. *)
Definition candidates (fw : Framework) (self : t) : list BaseContent :=
  let temp := language_filter fw in
  if truthy (tags self)
  then take (limit self) (with_all fw (tags self) temp)
  else take (limit self) temp.

(** The condition of line 100; [and] evaluates its right operand, and
    with it [request.user], only when the left one is true. *)
Definition condition (fw : Framework) (request : PyValue)
    (obj : BaseContent) : result bool :=
  match get_info fw obj with
  | Some _ =>
      u ← getattr_user request;
      if has_permission fw obj u "view" then
        u ← getattr_user request;
        Ok (is_active fw obj u)
      else Ok false
  | None => Ok false
  end.

(** The loop of lines 98 to 101, [objs] being the list built so far. *)
Fixpoint loop (fw : Framework) (request : PyValue)
    (temp : list BaseContent) (objs : list BaseContent)
    : result (list BaseContent) :=
  match temp with
  | [] => Ok objs
  | obj :: temp =>
      let obj := get_content_object fw obj in
      c ← condition fw request obj;
      loop fw request temp (if c : bool then objs ++ [obj] else objs)
  end.

(** The list [objs] handed to the template. *)
Definition objs (fw : Framework) (self : t)
    (context : gmap string PyValue) : result (list BaseContent) :=
  let request := context_get context "request" in
  loop fw request (candidates fw self) [].

Definition vars (self : t) (objs : list BaseContent)
    : gmap string TemplateValue :=
  {[ "title" := TStr (title self); "objs" := TObjs objs ]}.

Definition render (fw : Framework) (self : t)
    (context : gmap string PyValue) : result string :=
  objs ← objs fw self context;
  Ok (render_to_string fw template (Dict (vars self objs))).

(** [return "%s" % self.id], for a stored row (its primary key is set):
    the decimal numeral of the key. *)
Definition __unicode__ (self : t) : string := pretty (id self).

End ContentPortlet.

(** ** RandomPortlet *)
Module RandomPortlet.

Record t := {
  id : nat;
  title : string;
  limit : nat;
  tags : string;
}.

Definition template := "lfc/portlets/random_portlet.html".

(** Lines 141 to 147: the list that is shuffled. *)
Definition candidates (fw : Framework) (self : t) : list BaseContent :=
  let items := language_filter fw in
  if truthy (tags self)
  then take (limit self) (with_all fw (tags self) items)
  else items.

(** The list [items[:self.limit]] handed to the template, and the state
    the random generator is left in. *)
Definition items (fw : Framework) (self : t) (rnd : Random)
    : result (list BaseContent * Random) :=
  '(items, rnd) ← shuffle (candidates fw self) rnd;
  Ok (take (limit self) items, rnd).

Definition vars (self : t) (items : list BaseContent)
    : gmap string TemplateValue :=
  {[ "title" := TStr (title self); "items" := TObjs items ]}.

Definition render (fw : Framework) (self : t)
    (context : gmap string PyValue) (rnd : Random)
    : result (string * Random) :=
  '(items, rnd) ← items fw self rnd;
  Ok (render_to_string fw template (Dict (vars self items)), rnd).

End RandomPortlet.

(** ** TextPortlet *)
Module TextPortlet.

Record t := {
  id : nat;
  title : string;
  text : string;
}.

Definition template := "lfc/portlets/text_portlet.html".

Definition vars (self : t) : gmap string TemplateValue :=
  {[ "title" := TStr (title self); "text" := TStr (text self) ]}.

Definition render (fw : Framework) (self : t)
    (context : gmap string PyValue) : result string :=
  Ok (render_to_string fw template (Dict (vars self))).

(** [return "%s" % self.id], for a stored row. *)
Definition __unicode__ (self : t) : string := pretty (id self).

End TextPortlet.

(** ** Vocabulary of the statements *)

(** The language- and tag-filtered catalog before any slice: the language
    filter, narrowed by the tag query when the portlet has a tag string. *)
Definition filtered_catalog (fw : Framework) (tags : string) : list BaseContent :=
  if truthy tags then with_all fw tags (language_filter fw) else language_filter fw.

(** The filtered catalog in the words of the specification, written
    without the portlets' own query: the items of the catalog, in its
    order, whose language is the wildcard language "0" or equals the active
    language, narrowed under a tag string by the tag query. *)
Definition spec_filtered_catalog (fw : Framework) (tags : string)
    : list BaseContent :=
  let by_language :=
    filter (λ o, language o = "0" ∨ language o = get_language fw) (objects fw) in
  if truthy tags then with_all fw tags by_language else by_language.

(** The three checks of [ContentPortlet.render] for a known user. *)
Definition qualifies (fw : Framework) (u : User) (obj : BaseContent) : bool :=
  bool_decide (is_Some (get_info fw obj))
  && has_permission fw obj u "view"
  && is_active fw obj u.

(** A generator whose draws make the shuffle of a list of [n] items bring
    the item at index [k] to the front: the iteration with loop variable
    [k] draws 0, every other iteration draws its own loop variable. *)
Definition steer (n k : nat) : Random :=
  {| draws := λ t, if decide (n - 1 - t = k) then 0 else n - 1 - t;
     consumed := 0 |}.

(** ** A concrete installation, for the scenarios *)

(** Splits a string at every comma; [word] is the piece read so far. *)
Fixpoint split_commas (s : string) (word : string) : list string :=
  match s with
  | EmptyString => [word]
  | String c s =>
      if Ascii.eqb c ","%char
      then word :: split_commas s ""
      else split_commas s (word +:+ String c "")
  end.

(** The tag names of a plain comma-separated tag string. *)
Definition example_parse_tag_input (s : string) : list string :=
  filter (λ w, w ≠ "") (split_commas s "").

(** A renderer that shows which template was asked for and, under a
    [RequestContext], the path of the request: the navigation template
    marks the node of the page being viewed. *)
Definition example_render_to_string (template_name : string)
    (context : TemplateContext) : string :=
  match context with
  | RequestContext (PyRequest r) _ => template_name +:+ "@" +:+ path r
  | RequestContext _ _ | Dict _ => template_name
  end.

(** An installation with the given catalog, English as the active language,
    every content type registered, every object active, and the view
    permission granted on all objects but those whose slug is in [denied]. *)
Definition example_framework (catalog : list BaseContent)
    (denied : list string) : Framework := {|
  objects := catalog;
  get_language := "en";
  parse_tag_input := example_parse_tag_input;
  get_content_object := λ obj, obj;
  get_info := λ obj,
    Some {| info_name := content_type obj; display_select_standard := true |};
  has_permission := λ obj _ _, bool_decide (slug obj ∉ denied);
  is_active := λ _ _, true;
  render_to_string := example_render_to_string;
|}.

Definition page (name : string) (tags : gset string) : BaseContent :=
  {| slug := name; language := "0"; content_type := "page"; tag_set := tags |}.

Definition alice : User := {| username := "alice"; is_superuser := false |}.

Definition request_for (p : string) : gmap string PyValue :=
  {[ "request" := PyRequest {| user := alice; path := p |} ]}.

Definition no_random : Random := {| draws := λ _, 0; consumed := 0 |}.

(** *** The scenarios of the specification *)

(** Two untagged pages, the first one not viewable, under a limit of 1. *)
Definition cap_framework : Framework :=
  example_framework [page "A" ∅; page "B" ∅] ["A"].

Definition cap_portlet : ContentPortlet.t :=
  {| ContentPortlet.id := 1; ContentPortlet.title := "News";
     ContentPortlet.limit := 1; ContentPortlet.tags := "" |}.

(** Two pages tagged [x], the second one not viewable, under a limit of 5. *)
Definition tagged_framework (denied : list string) : Framework :=
  example_framework [page "A" {["x"]}; page "B" {["x"]}] denied.

Definition tagged_portlet : ContentPortlet.t :=
  {| ContentPortlet.id := 2; ContentPortlet.title := "Tagged";
     ContentPortlet.limit := 5; ContentPortlet.tags := "x" |}.

(** A random portlet showing one object, with and without a tag string. *)
Definition random_portlet (tags : string) : RandomPortlet.t :=
  {| RandomPortlet.id := 3; RandomPortlet.title := "Random";
     RandomPortlet.limit := 1; RandomPortlet.tags := tags |}.

(** A catalog in three languages: a page for all languages, an English
    one and a German one, English being the active language. *)
Definition page_in (lang name : string) : BaseContent :=
  {| slug := name; language := lang; content_type := "page"; tag_set := ∅ |}.

Definition multilingual_framework : Framework :=
  example_framework [page_in "0" "A"; page_in "en" "B"; page_in "de" "C"] [].

(** The two pages tagged [x] on an installation where no content type is
    registered. *)
Definition unregistered_framework : Framework := {|
  objects := [page "A" {["x"]}; page "B" {["x"]}];
  get_language := "en";
  parse_tag_input := example_parse_tag_input;
  get_content_object := λ obj, obj;
  get_info := λ _, None;
  has_permission := λ _ _ _, true;
  is_active := λ _ _, true;
  render_to_string := example_render_to_string;
|}.

(** ** The error monad *)

Lemma bind_Ok {A B} (f : A → result B) (a : A) : (Ok a ≫= f) = f a.
Proof. reflexivity. Qed.

Lemma bind_Raise {A B} (f : A → result B) (e : Exception) :
  (Raise e ≫= f) = Raise e.
Proof. reflexivity. Qed.

(** ** The shuffle *)

Section shuffle.
Context {A : Type}.
Implicit Types x y : list A.

Lemma swap_in_range x i j :
  i < length x → j < length x → ∃ y, swap x i j = Ok y.
Proof.
  intros [xi Hi]%lookup_lt_is_Some_2 [xj Hj]%lookup_lt_is_Some_2.
  unfold swap. rewrite Hi, Hj. eauto.
Qed.

(** Exchanging two cells rearranges the list. *)
Lemma swap_Permutation x i j y : swap x i j = Ok y → y ≡ₚ x.
Proof.
  unfold swap.
  destruct (x !! j) as [xj|] eqn:Hj; [|done].
  destruct (x !! i) as [xi|] eqn:Hi; [|done].
  intros [= <-].
  assert (i < length x) as Hli by (by eapply lookup_lt_Some).
  assert (j < length x) as Hlj by (by eapply lookup_lt_Some).
  apply Permutation_inj. split; [by rewrite !length_insert|].
  exists (λ k, if decide (k = i) then j else if decide (k = j) then i else k).
  split.
  - intros k1 k2 ?. repeat case_decide; congruence.
  - intros k. destruct (decide (k = j)) as [->|Hkj].
    + rewrite list_lookup_insert_eq by (by rewrite length_insert).
      case_decide; congruence.
    + rewrite list_lookup_insert_ne by done.
      destruct (decide (k = i)) as [->|Hki].
      * by rewrite list_lookup_insert_eq.
      * by rewrite list_lookup_insert_ne.
Qed.

Lemma shuffle_loop_S i x rnd :
  shuffle_loop (S i) x rnd =
    x' ← swap x (S i) (draws rnd (consumed rnd) `mod` (S i + 1));
    shuffle_loop i x' {| draws := draws rnd; consumed := S (consumed rnd) |}.
Proof. reflexivity. Qed.

(** The loop never indexes out of range and only rearranges. *)
Lemma shuffle_loop_Permutation i x rnd :
  i < length x ∨ i = 0 →
  ∃ y rnd', shuffle_loop i x rnd = Ok (y, rnd') ∧ y ≡ₚ x.
Proof.
  revert x rnd. induction i as [|i IH]; intros x rnd Hi.
  - by exists x, rnd.
  - destruct Hi as [Hi|]; [|done]. rewrite shuffle_loop_S.
    set (j := draws rnd (consumed rnd) `mod` (S i + 1)).
    assert (j < S i + 1) by (apply Nat.mod_upper_bound; lia).
    destruct (swap_in_range x (S i) j) as [x' Hx']; [lia..|].
    rewrite Hx', bind_Ok.
    pose proof (swap_Permutation _ _ _ _ Hx') as Hp.
    destruct (IH x' {| draws := draws rnd; consumed := S (consumed rnd) |})
      as (y & rnd' & -> & Hy).
    { left. rewrite (Permutation_length Hp). lia. }
    exists y, rnd'. split; [done|]. by rewrite Hy.
Qed.

Lemma shuffle_Permutation x rnd :
  ∃ y rnd', shuffle x rnd = Ok (y, rnd') ∧ y ≡ₚ x.
Proof. apply shuffle_loop_Permutation. destruct x; simpl; lia. Qed.

Lemma swap_same x i xi : x !! i = Some xi → swap x i i = Ok x.
Proof.
  intros Hi. unfold swap. rewrite Hi.
  by rewrite (list_insert_id x i xi Hi), (list_insert_id x i xi Hi).
Qed.

(** Under [steer n k] the item that starts at index [k] ends in front. *)
Lemma shuffle_loop_steer n k o i x c :
  c + i = n - 1 →
  i < length x ∨ i = 0 →
  x !! (if decide (k ≤ i) then k else 0) = Some o →
  ∃ y rnd',
    shuffle_loop i x {| draws := draws (steer n k); consumed := c |}
      = Ok (y, rnd')
    ∧ y !! 0 = Some o.
Proof.
  revert x c. induction i as [|i IH]; intros x c Hc Hi Ho.
  - eexists _, _. split; [done|].
    case_decide; [|done]. by replace k with 0 in Ho by lia.
  - destruct Hi as [Hi|]; [|done]. rewrite shuffle_loop_S.
    cbn [draws consumed steer]. replace (n - 1 - c) with (S i) by lia.
    destruct (decide (S i = k)) as [<-|Hk].
    + rewrite decide_True in Ho by done.
      destruct (lookup_lt_is_Some_2 x 0) as [a Ha]; [lia|].
      rewrite Nat.Div0.mod_0_l. unfold swap at 1. rewrite Ha, Ho, bind_Ok.
      apply IH; [lia|rewrite !length_insert; lia|].
      rewrite decide_False by lia.
      apply list_lookup_insert_eq. rewrite length_insert. lia.
    + rewrite Nat.mod_small by lia.
      destruct (lookup_lt_is_Some_2 x (S i)) as [b Hb]; [lia|].
      rewrite (swap_same _ _ _ Hb), bind_Ok.
      apply IH; [lia|lia|].
      repeat case_decide; (done || lia).
Qed.

(** Every item of a list is in front after some shuffle. *)
Lemma shuffle_reaches x o :
  o ∈ x → ∃ rnd y rnd', shuffle x rnd = Ok (y, rnd') ∧ y !! 0 = Some o.
Proof.
  intros [k Hk]%list_elem_of_lookup.
  pose proof (lookup_lt_Some _ _ _ Hk).
  exists (steer (length x) k).
  apply (shuffle_loop_steer (length x) k o (length x - 1) x 0); [lia..|].
  by rewrite decide_True by lia.
Qed.

(** The loop draws once per iteration and leaves the sequence of draws
    alone. *)
Lemma shuffle_loop_state i x rnd y rnd' :
  shuffle_loop i x rnd = Ok (y, rnd') →
  draws rnd' = draws rnd ∧ consumed rnd' = consumed rnd + i.
Proof.
  revert x rnd. induction i as [|i IH]; intros x rnd.
  - intros [= <- <-]. split; [done|lia].
  - rewrite shuffle_loop_S.
    destruct (swap x (S i) _) as [x'|e]; [|done]. rewrite bind_Ok.
    intros [-> ->]%IH. simpl. split; [done|lia].
Qed.

(** The result depends on the next [i] draws only. *)
Lemma shuffle_loop_window i x g1 c1 g2 c2 y rnd' :
  (∀ k, k < i → g1 (c1 + k) = g2 (c2 + k)) →
  shuffle_loop i x {| draws := g1; consumed := c1 |} = Ok (y, rnd') →
  shuffle_loop i x {| draws := g2; consumed := c2 |}
    = Ok (y, {| draws := g2; consumed := c2 + i |}).
Proof.
  revert x c1 c2. induction i as [|i IH]; intros x c1 c2 Hg.
  - intros [= <- <-]. simpl. by rewrite Nat.add_0_r.
  - rewrite !shuffle_loop_S. cbn [draws consumed].
    pose proof (Hg 0 ltac:(lia)) as H0. rewrite !Nat.add_0_r in H0.
    rewrite H0. destruct (swap x (S i) _) as [x'|e]; [|done].
    rewrite !bind_Ok. intros Hl.
    assert (∀ k, k < i → g1 (S c1 + k) = g2 (S c2 + k)) as Hg'.
    { intros k Hk. specialize (Hg (S k) ltac:(lia)).
      by replace (S c1 + k) with (c1 + S k) by lia;
         replace (S c2 + k) with (c2 + S k) by lia. }
    rewrite (IH x' (S c1) (S c2) Hg' Hl). do 3 f_equal. lia.
Qed.

End shuffle.

(** ** The catalog queries *)

Lemma elem_of_language_filter fw o :
  o ∈ language_filter fw ↔
    o ∈ objects fw ∧ (language o = "0" ∨ language o = get_language fw).
Proof.
  unfold language_filter. rewrite list_elem_of_filter. set_solver.
Qed.

Lemma elem_of_with_all fw tags queryset o :
  o ∈ with_all fw tags queryset ↔
    o ∈ queryset ∧ ∀ t, t ∈ parse_tag_input fw tags → t ∈ tag_set o.
Proof.
  unfold with_all. rewrite list_elem_of_filter. set_solver.
Qed.

Lemma elem_of_filtered_catalog fw tags o :
  o ∈ filtered_catalog fw tags ↔
    o ∈ objects fw
    ∧ (language o = "0" ∨ language o = get_language fw)
    ∧ (tags ≠ "" → ∀ t, t ∈ parse_tag_input fw tags → t ∈ tag_set o).
Proof.
  unfold filtered_catalog, truthy. case_bool_decide.
  - rewrite elem_of_with_all, elem_of_language_filter. naive_solver.
  - rewrite elem_of_language_filter. naive_solver.
Qed.

(** The query of the code selects what the specification describes:
    [language__in=("0", get_language())] keeps exactly the items in the
    wildcard or the active language, in the order of the catalog. *)
Lemma filtered_catalog_spec fw tags :
  filtered_catalog fw tags = spec_filtered_catalog fw tags.
Proof.
  unfold filtered_catalog, spec_filtered_catalog, language_filter.
  assert (filter (λ o, language o ∈ ["0"; get_language fw]) (objects fw)
          = filter (λ o, language o = "0" ∨ language o = get_language fw)
              (objects fw)) as ->; [|done].
  apply list_filter_iff. intros o.
  rewrite !elem_of_cons, elem_of_nil. naive_solver.
Qed.

(** ** ContentPortlet *)

Section content_portlet.
Import ContentPortlet.
Variable fw : Framework.
Implicit Types (self : ContentPortlet.t) (context : gmap string PyValue).
Implicit Types (temp acc : list BaseContent) (r : Request).

(** Both branches of the source end in the same slice. *)
Lemma candidates_take self :
  candidates fw self = take (limit self) (filtered_catalog fw (tags self)).
Proof. unfold candidates, filtered_catalog. by destruct (truthy _). Qed.

Lemma condition_request r obj :
  condition fw (PyRequest r) obj = Ok (qualifies fw (user r) obj).
Proof.
  unfold condition, qualifies.
  destruct (get_info fw obj) as [info|]; [|done].
  rewrite bool_decide_true by eauto. simpl.
  by destruct (has_permission fw obj (user r) "view").
Qed.

Lemma condition_unregistered request obj :
  get_info fw obj = None → condition fw request obj = Ok false.
Proof. unfold condition. by intros ->. Qed.

Lemma condition_no_user request obj :
  is_Some (get_info fw obj) → getattr_user request = Raise AttributeError →
  condition fw request obj = Raise AttributeError.
Proof. unfold condition. by intros [info ->] ->. Qed.

(** With a request at hand the loop is a filter. *)
Lemma loop_request r temp acc :
  loop fw (PyRequest r) temp acc =
    Ok (acc ++ filter (λ obj, qualifies fw (user r) obj)
                      (get_content_object fw <$> temp)).
Proof.
  revert acc. induction temp as [|o temp IH]; intros acc; simpl.
  - by rewrite app_nil_r.
  - rewrite condition_request, bind_Ok, IH, filter_cons.
    destruct (qualifies fw (user r) (get_content_object fw o)); simpl.
    + by rewrite <-app_assoc.
    + done.
Qed.

(** Whatever the request is, the loop adds resolved candidates only. *)
Lemma loop_elem_of request temp acc l obj :
  loop fw request temp acc = Ok l → obj ∈ l →
  obj ∈ acc ∨ ∃ o, o ∈ temp ∧ obj = get_content_object fw o.
Proof.
  revert acc. induction temp as [|o temp IH]; intros acc; simpl.
  - intros [= <-]. auto.
  - destruct (condition fw request (get_content_object fw o)) as [c|e];
      [|done].
    rewrite bind_Ok. intros Hl Hobj.
    destruct (IH _ Hl Hobj) as [Hacc|(o' & ? & ?)].
    + destruct c; [|by left].
      apply elem_of_app in Hacc as [?|Hobj']; [by left|right].
      apply list_elem_of_singleton in Hobj'. exists o. split; [left|done].
    + right. exists o'. split; [by right|done].
Qed.

(** Unregistered candidates are skipped before the request is used. *)
Lemma loop_unregistered request temp acc :
  (∀ o, o ∈ temp → get_info fw (get_content_object fw o) = None) →
  loop fw request temp acc = Ok acc.
Proof.
  revert acc. induction temp as [|o temp IH]; intros acc Hun; simpl; [done|].
  rewrite condition_unregistered by (apply Hun; left).
  rewrite bind_Ok. apply IH. intros o' ?. apply Hun. by right.
Qed.

(** The first registered candidate makes the loop read [request.user]. *)
Lemma loop_no_user request temp acc :
  getattr_user request = Raise AttributeError →
  (∃ o, o ∈ temp ∧ is_Some (get_info fw (get_content_object fw o))) →
  loop fw request temp acc = Raise AttributeError.
Proof.
  intros Hreq. revert acc.
  induction temp as [|o temp IH]; intros acc (o' & Ho' & Hinfo); simpl.
  - by apply elem_of_nil in Ho'.
  - destruct (get_info fw (get_content_object fw o)) as [info|] eqn:Ho.
    + rewrite condition_no_user by (rewrite ?Ho; eauto). done.
    + rewrite condition_unregistered, bind_Ok by done.
      apply IH. exists o'. split; [|done].
      apply elem_of_cons in Ho' as [->|?]; [|done].
      rewrite Ho in Hinfo. by destruct Hinfo.
Qed.

Lemma context_get_request context r :
  context !! "request" = Some (PyRequest r) →
  context_get context "request" = PyRequest r.
Proof. unfold context_get. by intros ->. Qed.

Lemma objs_request self context r :
  context !! "request" = Some (PyRequest r) →
  objs fw self context =
    Ok (filter (λ obj, qualifies fw (user r) obj)
          (get_content_object fw <$>
             take (limit self) (filtered_catalog fw (tags self)))).
Proof.
  intros Hr. unfold objs.
  by rewrite (context_get_request _ _ Hr), loop_request, candidates_take.
Qed.

End content_portlet.

(** C1. ContentPortlet cuts the language- and tag-filtered catalog down to
    its first [limit] items before the registration, permission and active
    checks: with a request in the context, the objects handed to the
    template are exactly the items among the first [limit] of the filtered
    catalog that pass the checks.  The result can therefore be shorter than
    [limit] although a passing item lies beyond the cut: for the catalog
    [A (not permitted); B (permitted)] and limit 1 the result is empty,
    while B is in the filtered catalog and passes every check. *)
Theorem ContentPortlet_cap_before_filter :
  (∀ fw self context,
     ContentPortlet.objs fw self context =
       ContentPortlet.loop fw (context_get context "request")
         (take (ContentPortlet.limit self)
            (filtered_catalog fw (ContentPortlet.tags self))) [])
  ∧ (∀ fw self context r,
     context !! "request" = Some (PyRequest r) →
     ContentPortlet.objs fw self context =
       Ok (filter (λ obj, qualifies fw (user r) obj)
             (get_content_object fw <$>
                take (ContentPortlet.limit self)
                  (filtered_catalog fw (ContentPortlet.tags self)))))
  ∧ ContentPortlet.objs cap_framework cap_portlet (request_for "/") = Ok []
  ∧ page "B" ∅ ∈ filtered_catalog cap_framework (ContentPortlet.tags cap_portlet)
  ∧ qualifies cap_framework alice
      (get_content_object cap_framework (page "B" ∅)) = true.
Proof.
  split; [intros; unfold ContentPortlet.objs; by rewrite candidates_take|].
  split; [intros; by apply objs_request|].
  split; [reflexivity|]. split; [|reflexivity].
  apply elem_of_filtered_catalog. split; [|split].
  - right. left.
  - by left.
  - done.
Qed.

Lemma ContentPortlet_cap_before_filter_witness :
  request_for "/" !! "request" = Some (PyRequest {| user := alice; path := "/" |})
  ∧ ContentPortlet.objs cap_framework cap_portlet (request_for "/") =
      Ok (filter (λ obj, qualifies cap_framework alice obj)
            (get_content_object cap_framework <$>
               take 1 (filtered_catalog cap_framework ""))).
Proof.
  split; [reflexivity|].
  apply (proj1 (proj2 ContentPortlet_cap_before_filter)
           cap_framework cap_portlet (request_for "/")
           {| user := alice; path := "/" |}).
  reflexivity.
Defined.

(** C5. ContentPortlet leaves out every object that fails the permission
    check or the active check, whether or not it passes the language and
    tag filters: with a request in the context the render succeeds and no
    such object is in the result.  For the catalog [A (tagged x,
    permitted); B (tagged x, not permitted)], tag string "x" and limit 5
    the result is exactly [A]. *)
Theorem ContentPortlet_excludes_unpermitted_inactive :
  (∀ fw self context r,
     context !! "request" = Some (PyRequest r) →
     ∃ l, ContentPortlet.objs fw self context = Ok l
       ∧ ∀ obj, has_permission fw obj (user r) "view" = false
                ∨ is_active fw obj (user r) = false → obj ∉ l)
  ∧ ContentPortlet.objs (tagged_framework ["B"]) tagged_portlet (request_for "/")
      = Ok [page "A" {["x"]}].
Proof.
  split; [|reflexivity].
  intros fw self context r Hr. eexists. split; [by apply objs_request|].
  intros obj Hfail [Hq _]%list_elem_of_filter.
  unfold qualifies in Hq.
  apply andb_prop_elim in Hq as [[_ Hp]%andb_prop_elim Ha].
  destruct Hfail as [Hf|Hf]; rewrite Hf in *; done.
Qed.

Lemma ContentPortlet_excludes_unpermitted_inactive_witness :
  request_for "/" !! "request" = Some (PyRequest {| user := alice; path := "/" |})
  ∧ ∃ l, ContentPortlet.objs (tagged_framework ["B"]) tagged_portlet
           (request_for "/") = Ok l
      ∧ ∀ obj, has_permission (tagged_framework ["B"]) obj alice "view" = false
               ∨ is_active (tagged_framework ["B"]) obj alice = false → obj ∉ l.
Proof.
  split; [reflexivity|].
  apply (proj1 ContentPortlet_excludes_unpermitted_inactive
           (tagged_framework ["B"]) tagged_portlet (request_for "/")
           {| user := alice; path := "/" |}).
  reflexivity.
Defined.

(** C4. With a non-empty tag string, every object ContentPortlet hands to
    the template is the resolved form of a catalog item that carries all
    the tags of the filter; where resolving an item keeps its tag set, the
    object itself carries them all. *)
Theorem ContentPortlet_conjunctive_tags fw self context l obj :
  ContentPortlet.tags self ≠ "" →
  ContentPortlet.objs fw self context = Ok l →
  obj ∈ l →
  (∃ o, o ∈ objects fw ∧ obj = get_content_object fw o
     ∧ ∀ t, t ∈ parse_tag_input fw (ContentPortlet.tags self) → t ∈ tag_set o)
  ∧ ((∀ o, tag_set (get_content_object fw o) = tag_set o) →
     ∀ t, t ∈ parse_tag_input fw (ContentPortlet.tags self) → t ∈ tag_set obj).
Proof.
  intros Htags Hl Hobj. unfold ContentPortlet.objs in Hl.
  destruct (loop_elem_of _ _ _ _ _ _ Hl Hobj) as [Hnil|(o & Ho & ->)].
  { by apply elem_of_nil in Hnil. }
  rewrite candidates_take in Ho.
  pose proof (elem_of_submseteq _ _ _ Ho (submseteq_take _ _)) as Ho'.
  apply elem_of_filtered_catalog in Ho' as (Hcat & _ & Hall).
  split.
  - exists o. eauto.
  - intros Hres t Ht. rewrite Hres. by apply Hall.
Qed.

Lemma ContentPortlet_conjunctive_tags_witness :
  (∃ o, o ∈ objects (tagged_framework ["B"])
     ∧ page "A" {["x"]} = get_content_object (tagged_framework ["B"]) o
     ∧ ∀ t, t ∈ parse_tag_input (tagged_framework ["B"]) "x" → t ∈ tag_set o)
  ∧ ∀ t, t ∈ parse_tag_input (tagged_framework ["B"]) "x" →
         t ∈ tag_set (page "A" {["x"]}).
Proof.
  destruct (ContentPortlet_conjunctive_tags (tagged_framework ["B"])
              tagged_portlet (request_for "/") [page "A" {["x"]}]
              (page "A" {["x"]})) as [H1 H2].
  - discriminate.
  - reflexivity.
  - left.
  - split; [exact H1|]. apply H2. reflexivity.
Defined.

(** ** RandomPortlet *)

Section random_portlet.
Import RandomPortlet.
Variable fw : Framework.
Implicit Types (self : RandomPortlet.t) (rnd : Random).

(** The shuffled list is drawn from the filtered catalog. *)
Lemma candidates_submseteq self :
  candidates fw self ⊆+ filtered_catalog fw (tags self).
Proof.
  unfold candidates, filtered_catalog.
  destruct (truthy _); [apply submseteq_take|done].
Qed.

(** A limit that covers the filtered catalog cuts nothing off. *)
Lemma candidates_full self :
  length (filtered_catalog fw (tags self)) ≤ limit self →
  candidates fw self = filtered_catalog fw (tags self).
Proof.
  unfold candidates, filtered_catalog.
  destruct (truthy _); [apply take_ge|done].
Qed.

(** With a tag string the slice comes before the shuffle. *)
Lemma candidates_tagged self :
  tags self ≠ "" →
  candidates fw self = take (limit self) (filtered_catalog fw (tags self)).
Proof.
  intros Ht. unfold candidates, filtered_catalog, truthy.
  by rewrite bool_decide_true.
Qed.

(** The portlet shows the first [limit] items of a rearrangement of the
    list it shuffles, and never fails. *)
Lemma items_shuffled self rnd :
  ∃ p rnd', p ≡ₚ candidates fw self
    ∧ items fw self rnd = Ok (take (limit self) p, rnd').
Proof.
  destruct (shuffle_Permutation (candidates fw self) rnd)
    as (p & rnd' & Hs & Hp).
  exists p, rnd'. split; [done|]. unfold items. by rewrite Hs.
Qed.

(** Under a tag string nothing beyond the slice is ever shown. *)
Lemma items_tagged_from_slice self rnd l rnd' o :
  tags self ≠ "" →
  items fw self rnd = Ok (l, rnd') → o ∈ l →
  o ∈ take (limit self) (filtered_catalog fw (tags self)).
Proof.
  intros Ht Hl Ho.
  destruct (items_shuffled self rnd) as (p & rnd'' & Hp & Hi).
  rewrite Hi in Hl. injection Hl as <- _.
  rewrite <-(candidates_tagged _ Ht), <-Hp.
  by eapply elem_of_submseteq, submseteq_take.
Qed.

(** Without a tag string every item of the filtered catalog is shown for
    some state of the random generator, unless the limit is 0. *)
Lemma items_untagged_reaches self o :
  tags self = "" → 0 < limit self →
  o ∈ filtered_catalog fw (tags self) →
  ∃ rnd l rnd', items fw self rnd = Ok (l, rnd') ∧ o ∈ l.
Proof.
  intros Ht Hlimit Ho.
  assert (candidates fw self = filtered_catalog fw (tags self)) as Hc.
  { unfold candidates, filtered_catalog. by rewrite Ht. }
  rewrite <-Hc in Ho.
  destruct (shuffle_reaches _ _ Ho) as (rnd & y & rnd' & Hs & Hy).
  exists rnd, (take (limit self) y), rnd'. split.
  - unfold items. by rewrite Hs.
  - apply elem_of_take. exists 0. split; [done|lia].
Qed.

End random_portlet.

(** C6. Whatever the random generator draws, RandomPortlet succeeds and the
    items it shows are taken, without repetition beyond the catalog's own,
    from the filtered catalog as the specification describes it: the
    catalog items whose language is "0" or the active language and which,
    under a tag string, pass the tag query.  They are at most [limit] many.
    When [limit] is at least the size of the filtered catalog they are a
    permutation of all of it, so that every catalog item in the wildcard
    or the active language, carrying under a tag string all its tags, is
    shown. *)
Theorem RandomPortlet_subset_bound_permutation fw self rnd :
  ∃ l rnd',
    RandomPortlet.items fw self rnd = Ok (l, rnd')
    ∧ l ⊆+ spec_filtered_catalog fw (RandomPortlet.tags self)
    ∧ (∀ o, o ∈ l →
         o ∈ objects fw ∧ (language o = "0" ∨ language o = get_language fw))
    ∧ length l ≤ RandomPortlet.limit self
    ∧ (length (spec_filtered_catalog fw (RandomPortlet.tags self))
         ≤ RandomPortlet.limit self →
       l ≡ₚ spec_filtered_catalog fw (RandomPortlet.tags self)
       ∧ ∀ o, o ∈ objects fw →
              language o = "0" ∨ language o = get_language fw →
              (RandomPortlet.tags self ≠ "" →
               ∀ t, t ∈ parse_tag_input fw (RandomPortlet.tags self) →
                    t ∈ tag_set o) →
              o ∈ l).
Proof.
  rewrite <-filtered_catalog_spec.
  destruct (items_shuffled fw self rnd) as (p & rnd' & Hp & ->).
  assert (take (RandomPortlet.limit self) p
            ⊆+ filtered_catalog fw (RandomPortlet.tags self)) as Hsub.
  { etrans; [apply submseteq_take|].
    rewrite Hp. apply candidates_submseteq. }
  eexists _, rnd'. split; [done|]. split; [done|]. split; [|split].
  - intros o Ho.
    pose proof (elem_of_submseteq _ _ _ Ho Hsub) as Hcat.
    apply elem_of_filtered_catalog in Hcat. naive_solver.
  - rewrite length_take. lia.
  - intros Hlen.
    assert (take (RandomPortlet.limit self) p
              ≡ₚ filtered_catalog fw (RandomPortlet.tags self)) as Hperm.
    { rewrite <-(candidates_full _ _ Hlen) in Hlen |- *.
      rewrite take_ge; [done|]. by rewrite (Permutation_length Hp). }
    split; [done|]. intros o Hcat Hlang Htags.
    rewrite Hperm. apply elem_of_filtered_catalog. auto.
Qed.

Lemma RandomPortlet_subset_bound_permutation_witness :
  length (spec_filtered_catalog multilingual_framework "") ≤ 5
  ∧ ∃ l rnd',
      RandomPortlet.items multilingual_framework
        {| RandomPortlet.id := 4; RandomPortlet.title := "";
           RandomPortlet.limit := 5; RandomPortlet.tags := "" |} no_random
        = Ok (l, rnd')
      ∧ l ≡ₚ [page_in "0" "A"; page_in "en" "B"]
      ∧ page_in "en" "B" ∈ l.
Proof.
  split; [vm_compute; lia|].
  destruct (RandomPortlet_subset_bound_permutation multilingual_framework
              {| RandomPortlet.id := 4; RandomPortlet.title := "";
                 RandomPortlet.limit := 5; RandomPortlet.tags := "" |}
              no_random) as (l & rnd' & Hl & _ & _ & _ & Hfull).
  destruct Hfull as [Hperm Hall]; [vm_compute; lia|].
  exists l, rnd'. split; [exact Hl|]. split; [exact Hperm|].
  apply Hall.
  - right. left.
  - right. reflexivity.
  - intros Htags. by destruct Htags.
Defined.

(** C3. With a limit of 0 both selections are empty: ContentPortlet hands
    the template an empty list for every catalog, tag string and context,
    and RandomPortlet does so for every catalog, tag string and state of
    the random generator. *)
Theorem limit_zero_selects_nothing :
  (∀ fw self context,
     ContentPortlet.limit self = 0 →
     ContentPortlet.objs fw self context = Ok [])
  ∧ (∀ fw self rnd,
       RandomPortlet.limit self = 0 →
       ∃ rnd', RandomPortlet.items fw self rnd = Ok ([], rnd')).
Proof.
  split.
  - intros fw self context Hlimit. unfold ContentPortlet.objs.
    by rewrite candidates_take, Hlimit, take_0.
  - intros fw self rnd Hlimit.
    destruct (items_shuffled fw self rnd) as (p & rnd' & _ & ->).
    exists rnd'. by rewrite Hlimit, take_0.
Qed.

Lemma limit_zero_selects_nothing_witness :
  ContentPortlet.objs cap_framework
    {| ContentPortlet.id := 5; ContentPortlet.title := "";
       ContentPortlet.limit := 0; ContentPortlet.tags := "x" |} ∅ = Ok []
  ∧ ∃ rnd',
      RandomPortlet.items (tagged_framework [])
        {| RandomPortlet.id := 6; RandomPortlet.title := "";
           RandomPortlet.limit := 0; RandomPortlet.tags := "" |} no_random
        = Ok ([], rnd').
Proof.
  split.
  - apply (proj1 limit_zero_selects_nothing). reflexivity.
  - apply (proj2 limit_zero_selects_nothing). reflexivity.
Defined.

(** C2. Under a tag string RandomPortlet slices the tag query to [limit]
    before it shuffles.  For the catalog [A; B], both tagged [x], the tag
    string "x" and limit 1, the portlet shows A for every state of the
    random generator; B, which is in the full filtered set, is never shown.
    Without a tag string the same catalog is shuffled whole and B can be
    shown. *)
Theorem RandomPortlet_tagged_slice_before_shuffle :
  (∀ rnd, ∃ rnd',
     RandomPortlet.items (tagged_framework []) (random_portlet "x") rnd
       = Ok ([page "A" {["x"]}], rnd'))
  ∧ filtered_catalog (tagged_framework []) "x"
      = [page "A" {["x"]}; page "B" {["x"]}]
  ∧ (∃ rnd',
       RandomPortlet.items (tagged_framework []) (random_portlet "") no_random
         = Ok ([page "B" {["x"]}], rnd')).
Proof.
  split; [|split].
  - intros rnd. exists rnd. reflexivity.
  - reflexivity.
  - eexists. reflexivity.
Qed.

(** ** TextPortlet *)

(** C7. TextPortlet hands its stored text to the template unchanged: for
    every stored string the render succeeds, independently of the context,
    with the markup of the text template for a dict whose only entries are
    the title and, under "text", the stored string itself; so it is for the
    empty string and for a string of markup. *)
Theorem TextPortlet_text_verbatim :
  (∀ fw self context,
     ∃ d, TextPortlet.render fw self context
            = Ok (render_to_string fw "lfc/portlets/text_portlet.html" (Dict d))
        ∧ d !! "text" = Some (TStr (TextPortlet.text self))
        ∧ d !! "title" = Some (TStr (TextPortlet.title self))
        ∧ ∀ k, k ≠ "text" → k ≠ "title" → d !! k = None)
  ∧ TextPortlet.vars
      {| TextPortlet.id := 7; TextPortlet.title := ""; TextPortlet.text := "" |}
      !! "text" = Some (TStr "")
  ∧ TextPortlet.vars
      {| TextPortlet.id := 8; TextPortlet.title := "Hi";
         TextPortlet.text := "<p onclick='x()'>a &amp; <b>b</b></p>" |}
      !! "text" = Some (TStr "<p onclick='x()'>a &amp; <b>b</b></p>").
Proof.
  split; [|split; reflexivity].
  intros fw self context. exists (TextPortlet.vars self).
  unfold TextPortlet.vars. split; [done|]. split; [|split].
  - by simplify_map_eq.
  - by simplify_map_eq.
  - intros k ??. by simplify_map_eq.
Qed.

Lemma TextPortlet_text_verbatim_witness :
  ∃ d, TextPortlet.render cap_framework
         {| TextPortlet.id := 8; TextPortlet.title := "Hi";
            TextPortlet.text := "<b>b</b>" |} ∅
         = Ok (render_to_string cap_framework "lfc/portlets/text_portlet.html"
                 (Dict d))
     ∧ d !! "text" = Some (TStr "<b>b</b>")
     ∧ d !! "objs" = None.
Proof.
  destruct (proj1 TextPortlet_text_verbatim cap_framework
              {| TextPortlet.id := 8; TextPortlet.title := "Hi";
                 TextPortlet.text := "<b>b</b>" |} ∅)
    as (d & Hr & Htext & _ & Hother).
  exists d. split; [exact Hr|]. split; [exact Htext|].
  apply Hother; discriminate.
Defined.

(** ** NavigationPortlet *)

(** The render forwards the request of the context to the template: two
    contexts with different requests give different markup for one and the
    same portlet. *)
Lemma NavigationPortlet_render_reads_request :
  ¬ ∀ fw s1 s2 (c1 c2 : gmap string PyValue),
      NavigationPortlet.start_level s1 = NavigationPortlet.start_level s2 →
      NavigationPortlet.expand_level s1 = NavigationPortlet.expand_level s2 →
      NavigationPortlet.title s1 = NavigationPortlet.title s2 →
      NavigationPortlet.render fw s1 c1 = NavigationPortlet.render fw s2 c2.
Proof.
  intros H.
  pose (s := {| NavigationPortlet.id := 9; NavigationPortlet.title := "Menu";
                NavigationPortlet.start_level := 1;
                NavigationPortlet.expand_level := 0 |}).
  specialize (H cap_framework s s (request_for "/a") (request_for "/b")
                eq_refl eq_refl eq_refl).
  vm_compute in H. discriminate H.
Qed.

(** C8, amended. NavigationPortlet's render depends on the start level, the
    expand level, the title and the request of the context, and on nothing
    else: two portlets and contexts that agree on these four give the same
    result, whatever their ids and the other entries of the contexts. *)
Theorem NavigationPortlet_forwards_parameters fw s1 s2
    (c1 c2 : gmap string PyValue) :
  NavigationPortlet.start_level s1 = NavigationPortlet.start_level s2 →
  NavigationPortlet.expand_level s1 = NavigationPortlet.expand_level s2 →
  NavigationPortlet.title s1 = NavigationPortlet.title s2 →
  c1 !! "request" = c2 !! "request" →
  NavigationPortlet.render fw s1 c1 = NavigationPortlet.render fw s2 c2.
Proof.
  intros Hs He Ht Hr.
  unfold NavigationPortlet.render, NavigationPortlet.vars, context_get.
  by rewrite Hs, He, Ht, Hr.
Qed.

Lemma NavigationPortlet_forwards_parameters_witness :
  NavigationPortlet.render cap_framework
    {| NavigationPortlet.id := 10; NavigationPortlet.title := "Menu";
       NavigationPortlet.start_level := 1; NavigationPortlet.expand_level := 2 |}
    (request_for "/a")
  = NavigationPortlet.render cap_framework
      {| NavigationPortlet.id := 11; NavigationPortlet.title := "Menu";
         NavigationPortlet.start_level := 1; NavigationPortlet.expand_level := 2 |}
      (<["page" := PyStr "about"]> (request_for "/a")).
Proof.
  apply NavigationPortlet_forwards_parameters; reflexivity.
Defined.

(** ** Errors *)

(** Without a request in the context ContentPortlet's render raises as soon
    as a registered candidate is met. *)
Lemma ContentPortlet_render_raises :
  ¬ ∀ fw self context,
      ∃ markup, ContentPortlet.render fw self context = Ok markup.
Proof.
  intros H. destruct (H cap_framework cap_portlet ∅) as [markup Hm].
  vm_compute in Hm. discriminate Hm.
Qed.

(** C9, amended. The renders of NavigationPortlet, RandomPortlet and
    TextPortlet never raise.  ContentPortlet's render does not raise when
    the context holds a request: it then succeeds with the template's
    markup for a list of objects from which every candidate without a
    registration entry, without the view permission or not active has been
    left out, and which may be empty. *)
Theorem render_raises_nothing_given_request :
  (∀ fw self context,
     ∃ markup, NavigationPortlet.render fw self context = Ok markup)
  ∧ (∀ fw self context rnd,
       ∃ markup rnd',
         RandomPortlet.render fw self context rnd = Ok (markup, rnd'))
  ∧ (∀ fw self context,
       ∃ markup, TextPortlet.render fw self context = Ok markup)
  ∧ (∀ fw self context r,
       context !! "request" = Some (PyRequest r) →
       ∃ l,
         ContentPortlet.objs fw self context = Ok l
         ∧ ContentPortlet.render fw self context
             = Ok (render_to_string fw ContentPortlet.template
                     (Dict (ContentPortlet.vars self l)))
         ∧ ∀ obj,
             get_info fw obj = None
             ∨ has_permission fw obj (user r) "view" = false
             ∨ is_active fw obj (user r) = false →
             obj ∉ l).
Proof.
  split; [|split; [|split]].
  - intros. by eexists.
  - intros fw self context rnd.
    destruct (items_shuffled fw self rnd) as (p & rnd' & _ & Hi).
    eexists _, rnd'. unfold RandomPortlet.render. by rewrite Hi.
  - intros. by eexists.
  - intros fw self context r Hr.
    pose proof (objs_request fw self context r Hr) as Hl.
    eexists. split; [exact Hl|]. split.
    { unfold ContentPortlet.render. by rewrite Hl. }
    intros obj Hfail [Hq _]%list_elem_of_filter. unfold qualifies in Hq.
    apply andb_prop_elim in Hq as [[Hi Hp]%andb_prop_elim Ha].
    apply bool_decide_unpack in Hi as [info Hi].
    destruct Hfail as [Hf|[Hf|Hf]]; rewrite Hf in *; done.
Qed.

Lemma render_raises_nothing_given_request_witness :
  request_for "/" !! "request" = Some (PyRequest {| user := alice; path := "/" |})
  ∧ ∃ l,
      ContentPortlet.objs (tagged_framework ["B"]) tagged_portlet (request_for "/")
        = Ok l
      ∧ ContentPortlet.render (tagged_framework ["B"]) tagged_portlet
          (request_for "/")
          = Ok (render_to_string (tagged_framework ["B"]) ContentPortlet.template
                  (Dict (ContentPortlet.vars tagged_portlet l)))
      ∧ ∀ obj,
          get_info (tagged_framework ["B"]) obj = None
          ∨ has_permission (tagged_framework ["B"]) obj alice "view" = false
          ∨ is_active (tagged_framework ["B"]) obj alice = false →
          obj ∉ l.
Proof.
  split; [reflexivity|].
  apply (proj2 (proj2 (proj2 render_raises_nothing_given_request))
           (tagged_framework ["B"]) tagged_portlet (request_for "/")
           {| user := alice; path := "/" |}).
  reflexivity.
Defined.

(** C10. ContentPortlet's render reads [request.user] of the request it
    takes from the context.  For a context without a "request" entry and a
    catalog with a (registered) item among the capped candidates the render
    raises [AttributeError] instead of returning an empty result, as it
    does for the one-candidate scenario; with no candidate left after the
    cap it succeeds without a request, on an empty list. *)
Theorem ContentPortlet_render_needs_request :
  ((∅ : gmap string PyValue) !! "request" = None
   ∧ ContentPortlet.candidates cap_framework cap_portlet = [page "A" ∅]
   ∧ ContentPortlet.render cap_framework cap_portlet ∅ = Raise AttributeError)
  ∧ (∀ fw self (context : gmap string PyValue),
       context !! "request" = None →
       (∃ o, o ∈ ContentPortlet.candidates fw self
          ∧ is_Some (get_info fw (get_content_object fw o))) →
       ContentPortlet.render fw self context = Raise AttributeError)
  ∧ (∀ fw self (context : gmap string PyValue),
       context !! "request" = None →
       ContentPortlet.candidates fw self = [] →
       ContentPortlet.render fw self context
         = Ok (render_to_string fw ContentPortlet.template
                 (Dict (ContentPortlet.vars self [])))).
Proof.
  split; [|split].
  - split; [done|]. split; reflexivity.
  - intros fw self context Hr Hcand.
    unfold ContentPortlet.render, ContentPortlet.objs, context_get.
    rewrite Hr. simpl. by rewrite loop_no_user.
  - intros fw self context Hr Hcand.
    unfold ContentPortlet.render, ContentPortlet.objs. by rewrite Hcand.
Qed.

Lemma ContentPortlet_render_needs_request_witness :
  ((∅ : gmap string PyValue) !! "request" = None
   ∧ (∃ o, o ∈ ContentPortlet.candidates cap_framework cap_portlet
        ∧ is_Some (get_info cap_framework (get_content_object cap_framework o)))
   ∧ ContentPortlet.render cap_framework cap_portlet ∅ = Raise AttributeError)
  ∧ ContentPortlet.candidates (example_framework [] []) cap_portlet = []
  ∧ ContentPortlet.render (example_framework [] []) cap_portlet ∅
      = Ok (render_to_string (example_framework [] []) ContentPortlet.template
              (Dict (ContentPortlet.vars cap_portlet []))).
Proof.
  assert (∃ o, o ∈ ContentPortlet.candidates cap_framework cap_portlet
             ∧ is_Some (get_info cap_framework
                          (get_content_object cap_framework o))) as Hcand.
  { exists (page "A" ∅). split; [left|]. eexists. reflexivity. }
  split; [split; [reflexivity|split; [exact Hcand|]]|split; [reflexivity|]].
  - apply (proj1 (proj2 ContentPortlet_render_needs_request)
             cap_framework cap_portlet ∅); [reflexivity|exact Hcand].
  - apply (proj2 (proj2 ContentPortlet_render_needs_request)
             (example_framework [] []) cap_portlet ∅); reflexivity.
Defined.

(** ** Further properties of ContentPortlet *)

Section content_portlet_loop.
Import ContentPortlet.
Variable fw : Framework.
Implicit Types (temp acc l : list BaseContent) (request : PyValue).

(** The loop appends to [objs], in the order of the candidates. *)
Lemma loop_sublist request temp acc l :
  loop fw request temp acc = Ok l →
  ∃ l', l = acc ++ l' ∧ l' `sublist_of` (get_content_object fw <$> temp).
Proof.
  revert acc. induction temp as [|o temp IH]; intros acc; simpl.
  - intros [= <-]. exists []. by rewrite app_nil_r.
  - destruct (condition fw request (get_content_object fw o)) as [c|e];
      [|done].
    rewrite bind_Ok. intros (l' & -> & Hsub)%IH. destruct c.
    + exists (get_content_object fw o :: l'). rewrite <-app_assoc.
      split; [done|]. by apply sublist_skip.
    + exists l'. split; [done|]. by apply sublist_cons.
Qed.

(** Either no candidate is registered or some candidate is. *)
Lemma registered_or_not temp :
  (∀ o, o ∈ temp → get_info fw (get_content_object fw o) = None)
  ∨ (∃ o, o ∈ temp ∧ is_Some (get_info fw (get_content_object fw o))).
Proof.
  induction temp as [|o temp [IH|(o' & ? & ?)]].
  - left. by intros o ?%elem_of_nil.
  - destruct (get_info fw (get_content_object fw o)) as [info|] eqn:Ho.
    + right. exists o. split; [left|]. rewrite Ho. eauto.
    + left. intros o' [->|?]%elem_of_cons; auto.
  - right. exists o'. split; [by right|done].
Qed.

(** A context value either is a request or has no [user]. *)
Lemma getattr_user_cases request :
  (∃ r, request = PyRequest r) ∨ getattr_user request = Raise AttributeError.
Proof. destruct request; eauto. Qed.

Lemma context_get_no_request (context : gmap string PyValue) :
  (∀ r, context !! "request" ≠ Some (PyRequest r)) →
  getattr_user (context_get context "request") = Raise AttributeError.
Proof.
  intros Hno. unfold context_get.
  destruct (context !! "request") as [[| |r]|]; try done.
  by destruct (Hno r).
Qed.

Lemma filter_all_true {A} (f : A → bool) (xs : list A) :
  (∀ x, x ∈ xs → f x = true) → filter (λ x, f x) xs = xs.
Proof.
  induction xs as [|x xs IH]; intros Hall; [done|].
  rewrite filter_cons, (Hall x) by left. simpl.
  rewrite IH; [done|]. intros y ?. apply Hall. by right.
Qed.

End content_portlet_loop.

(** X1. Whatever the context, a list ContentPortlet hands to its template
    follows the order of the catalog: it is a sublist of the resolved
    language- and tag-filtered catalog, and it has at most [limit]
    entries. *)
Theorem ContentPortlet_objs_in_catalog_order fw self context l :
  ContentPortlet.objs fw self context = Ok l →
  l `sublist_of`
      (get_content_object fw <$> filtered_catalog fw (ContentPortlet.tags self))
  ∧ length l ≤ ContentPortlet.limit self.
Proof.
  unfold ContentPortlet.objs. rewrite candidates_take.
  intros (l' & -> & Hsub)%loop_sublist. simpl. split.
  - etrans; [exact Hsub|]. apply fmap_sublist, sublist_take.
  - apply sublist_length in Hsub.
    rewrite length_fmap, length_take in Hsub. lia.
Qed.

Lemma ContentPortlet_objs_in_catalog_order_witness :
  [page "A" {["x"]}] `sublist_of`
      (get_content_object (tagged_framework ["B"]) <$>
         filtered_catalog (tagged_framework ["B"]) "x")
  ∧ length [page "A" {["x"]}] ≤ 5.
Proof.
  apply (ContentPortlet_objs_in_catalog_order (tagged_framework ["B"])
           tagged_portlet (request_for "/")).
  reflexivity.
Defined.

(** X2. ContentPortlet's render raises exactly when the context holds no
    request object and one of the first [limit] items of the filtered
    catalog resolves to an object with a registration entry; the exception
    is then [AttributeError], never another one. *)
Theorem ContentPortlet_render_raises_iff fw self
    (context : gmap string PyValue) e :
  ContentPortlet.render fw self context = Raise e ↔
    e = AttributeError
    ∧ (∀ r, context !! "request" ≠ Some (PyRequest r))
    ∧ ∃ o, o ∈ take (ContentPortlet.limit self)
                 (filtered_catalog fw (ContentPortlet.tags self))
         ∧ is_Some (get_info fw (get_content_object fw o)).
Proof.
  unfold ContentPortlet.render, ContentPortlet.objs.
  rewrite candidates_take.
  set (temp := take _ _). split.
  - intros Hraise.
    destruct (getattr_user_cases (context_get context "request"))
      as [[r Hr]|Hno].
    { rewrite Hr, loop_request in Hraise. done. }
    destruct (registered_or_not fw temp) as [Hun|Hreg].
    { by rewrite loop_unregistered in Hraise. }
    rewrite (loop_no_user _ _ _ _ Hno Hreg) in Hraise.
    injection Hraise as <-. split; [done|]. split; [|done].
    intros r Hr. unfold context_get in Hno. by rewrite Hr in Hno.
  - intros (-> & Hno & Hreg).
    by rewrite (loop_no_user _ _ _ _ (context_get_no_request _ Hno) Hreg).
Qed.

Lemma ContentPortlet_render_raises_iff_witness :
  ContentPortlet.render cap_framework cap_portlet
    {[ "request" := PyStr "anonymous" ]} = Raise AttributeError.
Proof.
  apply ContentPortlet_render_raises_iff. split; [reflexivity|]. split.
  - intros r. vm_compute. discriminate.
  - exists (page "A" ∅). split; [left|]. eexists. reflexivity.
Defined.

(** X3. Without a request object in the context ContentPortlet never shows
    an object: a render that does not raise hands the template the empty
    list. *)
Theorem ContentPortlet_no_user_no_objects fw self
    (context : gmap string PyValue) l :
  (∀ r, context !! "request" ≠ Some (PyRequest r)) →
  ContentPortlet.objs fw self context = Ok l →
  l = [].
Proof.
  intros Hno%context_get_no_request. unfold ContentPortlet.objs.
  destruct (registered_or_not fw (ContentPortlet.candidates fw self))
    as [Hun|Hreg].
  - rewrite loop_unregistered by done. congruence.
  - by rewrite (loop_no_user _ _ _ _ Hno Hreg).
Qed.

Lemma ContentPortlet_no_user_no_objects_witness :
  ContentPortlet.objs unregistered_framework tagged_portlet ∅ = Ok []
  ∧ ([] : list BaseContent) = [].
Proof.
  split; [reflexivity|].
  apply (ContentPortlet_no_user_no_objects unregistered_framework
           tagged_portlet ∅).
  - intros r. vm_compute. discriminate.
  - reflexivity.
Defined.

(** X4. Raising the limit only appends: for one request and one tag
    string, the list shown under a limit is a prefix of the list shown
    under any larger limit. *)
Theorem ContentPortlet_limit_prefix fw s1 s2
    (context : gmap string PyValue) r :
  ContentPortlet.tags s1 = ContentPortlet.tags s2 →
  ContentPortlet.limit s1 ≤ ContentPortlet.limit s2 →
  context !! "request" = Some (PyRequest r) →
  ∃ l1 l2,
    ContentPortlet.objs fw s1 context = Ok l1
    ∧ ContentPortlet.objs fw s2 context = Ok l2
    ∧ l1 `prefix_of` l2.
Proof.
  intros Ht Hle Hr. eexists _, _.
  split; [by apply objs_request|]. split; [by apply objs_request|].
  rewrite Ht.
  replace (ContentPortlet.limit s2) with
    (ContentPortlet.limit s1
     + (ContentPortlet.limit s2 - ContentPortlet.limit s1)) by lia.
  rewrite <-take_take_drop, fmap_app, filter_app.
  by apply prefix_app_r.
Qed.

Lemma ContentPortlet_limit_prefix_witness :
  ∃ l1 l2,
    ContentPortlet.objs (tagged_framework ["B"])
      {| ContentPortlet.id := 12; ContentPortlet.title := "";
         ContentPortlet.limit := 1; ContentPortlet.tags := "x" |}
      (request_for "/") = Ok l1
    ∧ ContentPortlet.objs (tagged_framework ["B"]) tagged_portlet
        (request_for "/") = Ok l2
    ∧ l1 `prefix_of` l2.
Proof.
  apply (ContentPortlet_limit_prefix (tagged_framework ["B"]) _ tagged_portlet
           (request_for "/") {| user := alice; path := "/" |}).
  - reflexivity.
  - vm_compute. lia.
  - reflexivity.
Defined.

(** X5. Of the context ContentPortlet's render reads the user of the
    request and nothing else, and of the portlet its title, limit and tag
    string: two renders that agree on these give the same result, whatever
    the ids, the paths of the requests and the other context entries. *)
Theorem ContentPortlet_render_reads_user_only fw s1 s2
    (c1 c2 : gmap string PyValue) r1 r2 :
  ContentPortlet.title s1 = ContentPortlet.title s2 →
  ContentPortlet.limit s1 = ContentPortlet.limit s2 →
  ContentPortlet.tags s1 = ContentPortlet.tags s2 →
  c1 !! "request" = Some (PyRequest r1) →
  c2 !! "request" = Some (PyRequest r2) →
  user r1 = user r2 →
  ContentPortlet.render fw s1 c1 = ContentPortlet.render fw s2 c2.
Proof.
  intros Htitle Hlimit Htags H1 H2 Hu. unfold ContentPortlet.render.
  rewrite (objs_request _ _ _ _ H1), (objs_request _ _ _ _ H2).
  unfold ContentPortlet.vars. by rewrite Htitle, Hlimit, Htags, Hu.
Qed.

Lemma ContentPortlet_render_reads_user_only_witness :
  ContentPortlet.render (tagged_framework ["B"]) tagged_portlet (request_for "/a")
  = ContentPortlet.render (tagged_framework ["B"])
      {| ContentPortlet.id := 13; ContentPortlet.title := "Tagged";
         ContentPortlet.limit := 5; ContentPortlet.tags := "x" |}
      (<["page" := PyStr "about"]> (request_for "/b")).
Proof.
  apply (ContentPortlet_render_reads_user_only _ _ _ _ _
           {| user := alice; path := "/a" |} {| user := alice; path := "/b" |});
    reflexivity.
Defined.

(** X6. When every one of the first [limit] items of the filtered catalog
    passes the three checks, ContentPortlet shows all of them: the list is
    the resolved slice itself, of length min(limit, size of the filtered
    catalog). *)
Theorem ContentPortlet_all_viewable fw self
    (context : gmap string PyValue) r :
  context !! "request" = Some (PyRequest r) →
  (∀ o, o ∈ take (ContentPortlet.limit self)
              (filtered_catalog fw (ContentPortlet.tags self)) →
        qualifies fw (user r) (get_content_object fw o) = true) →
  ∃ l, ContentPortlet.objs fw self context = Ok l
     ∧ l = get_content_object fw <$>
             take (ContentPortlet.limit self)
               (filtered_catalog fw (ContentPortlet.tags self))
     ∧ length l = ContentPortlet.limit self
                    `min` length (filtered_catalog fw (ContentPortlet.tags self)).
Proof.
  intros Hr Hall. eexists. split; [by apply objs_request|].
  rewrite filter_all_true.
  - split; [done|]. by rewrite length_fmap, length_take.
  - intros obj (o & -> & Ho)%list_elem_of_fmap. by apply Hall.
Qed.

Lemma ContentPortlet_all_viewable_witness :
  ∃ l, ContentPortlet.objs (tagged_framework []) tagged_portlet (request_for "/")
         = Ok l
     ∧ l = get_content_object (tagged_framework []) <$>
             take 5 (filtered_catalog (tagged_framework []) "x")
     ∧ length l = 5 `min` length (filtered_catalog (tagged_framework []) "x").
Proof.
  apply (ContentPortlet_all_viewable (tagged_framework []) tagged_portlet
           (request_for "/") {| user := alice; path := "/" |}).
  - reflexivity.
  - intros o _. reflexivity.
Defined.

(** ** Further properties of RandomPortlet *)

Section random_portlet_count.
Import RandomPortlet.
Variable fw : Framework.
Implicit Types (self : RandomPortlet.t) (rnd : Random).

(** The number of items the portlet shuffles. *)
Lemma length_candidates self :
  length (candidates fw self) =
    if truthy (tags self)
    then limit self `min` length (filtered_catalog fw (tags self))
    else length (filtered_catalog fw (tags self)).
Proof.
  unfold candidates, filtered_catalog.
  destruct (truthy _); [apply length_take|done].
Qed.

Lemma length_candidates_le self :
  length (candidates fw self) ≤ length (filtered_catalog fw (tags self)).
Proof. rewrite length_candidates. destruct (truthy _); lia. Qed.

End random_portlet_count.

(** X7. Whatever the random generator draws, RandomPortlet shows exactly
    min(limit, size of the filtered catalog) items. *)
Theorem RandomPortlet_shows_min fw self rnd :
  ∃ l rnd',
    RandomPortlet.items fw self rnd = Ok (l, rnd')
    ∧ length l = RandomPortlet.limit self
                   `min` length (filtered_catalog fw (RandomPortlet.tags self)).
Proof.
  destruct (items_shuffled fw self rnd) as (p & rnd' & Hp & ->).
  eexists _, _. split; [done|].
  rewrite length_take, (Permutation_length Hp), length_candidates.
  destruct (truthy _); lia.
Qed.

(** X8. A render of RandomPortlet leaves the sequence of draws of the
    random generator as it is and consumes one draw less than the number
    of items it shuffles: the size of the filtered catalog without a tag
    string, the smaller of that size and [limit] with one; none at all
    when there is at most one item to shuffle. *)
Theorem RandomPortlet_draws_consumed fw self rnd :
  ∃ l rnd',
    RandomPortlet.items fw self rnd = Ok (l, rnd')
    ∧ draws rnd' = draws rnd
    ∧ consumed rnd' = consumed rnd +
        ((if truthy (RandomPortlet.tags self)
          then RandomPortlet.limit self
                 `min` length (filtered_catalog fw (RandomPortlet.tags self))
          else length (filtered_catalog fw (RandomPortlet.tags self))) - 1).
Proof.
  unfold RandomPortlet.items.
  destruct (shuffle_Permutation (RandomPortlet.candidates fw self) rnd)
    as (p & rnd' & Hs & _).
  rewrite Hs, bind_Ok. eexists _, _. split; [done|].
  apply shuffle_loop_state in Hs as [-> ->].
  by rewrite length_candidates.
Qed.

(** X9. The items shown depend on the random generator through its next
    draws only: two generator states whose next draws agree, as many as
    the filtered catalog has items but one, give the same items in the
    same order. *)
Theorem RandomPortlet_same_draws_same_items fw self r1 r2 :
  (∀ k, k < length (filtered_catalog fw (RandomPortlet.tags self)) - 1 →
        draws r1 (consumed r1 + k) = draws r2 (consumed r2 + k)) →
  ∃ l r1' r2',
    RandomPortlet.items fw self r1 = Ok (l, r1')
    ∧ RandomPortlet.items fw self r2 = Ok (l, r2').
Proof.
  intros Hd. unfold RandomPortlet.items.
  destruct (shuffle_Permutation (RandomPortlet.candidates fw self) r1)
    as (p & r1' & Hs & _).
  assert (shuffle (RandomPortlet.candidates fw self) r2
            = Ok (p, {| draws := draws r2;
                        consumed := consumed r2
                          + (length (RandomPortlet.candidates fw self) - 1) |}))
    as Hs2.
  { destruct r1 as [g1 c1], r2 as [g2 c2].
    apply (shuffle_loop_window _ _ g1 c1 g2 c2 p r1'); [|exact Hs].
    intros k Hk. apply Hd.
    pose proof (length_candidates_le fw self). lia. }
  rewrite Hs, Hs2. by eexists _, _, _.
Qed.

Lemma RandomPortlet_same_draws_same_items_witness :
  ∃ l r1' r2',
    RandomPortlet.items (tagged_framework []) (random_portlet "") no_random
      = Ok (l, r1')
    ∧ RandomPortlet.items (tagged_framework []) (random_portlet "")
        {| draws := λ t, 2 * t; consumed := 0 |} = Ok (l, r2').
Proof.
  apply RandomPortlet_same_draws_same_items.
  intros k Hk. vm_compute in Hk. by replace k with 0 by lia.
Defined.

(** X11. With a tag string the items shown are the first [limit] items of
    the tag-filtered catalog, all of them and no others, in the order the
    shuffle leaves them in. *)
Theorem RandomPortlet_tagged_shows_slice fw self rnd :
  RandomPortlet.tags self ≠ "" →
  ∃ l rnd',
    RandomPortlet.items fw self rnd = Ok (l, rnd')
    ∧ l ≡ₚ take (RandomPortlet.limit self)
             (filtered_catalog fw (RandomPortlet.tags self)).
Proof.
  intros Ht.
  destruct (items_shuffled fw self rnd) as (p & rnd' & Hp & ->).
  eexists _, _. split; [done|].
  rewrite candidates_tagged in Hp by done.
  rewrite take_ge; [done|].
  rewrite (Permutation_length Hp), length_take. lia.
Qed.

Lemma RandomPortlet_tagged_shows_slice_witness :
  ∃ l rnd',
    RandomPortlet.items (tagged_framework []) (random_portlet "x") no_random
      = Ok (l, rnd')
    ∧ l ≡ₚ take 1 (filtered_catalog (tagged_framework []) "x").
Proof.
  apply (RandomPortlet_tagged_shows_slice (tagged_framework [])
           (random_portlet "x") no_random).
  discriminate.
Defined.

(** X12. On an empty filtered catalog both portlets show nothing, for
    every limit: ContentPortlet whatever the context holds, RandomPortlet
    without touching the random generator. *)
Theorem empty_catalog_selects_nothing fw :
  (∀ self context,
     filtered_catalog fw (ContentPortlet.tags self) = [] →
     ContentPortlet.objs fw self context = Ok [])
  ∧ (∀ self rnd,
       filtered_catalog fw (RandomPortlet.tags self) = [] →
       RandomPortlet.items fw self rnd = Ok ([], rnd)).
Proof.
  split.
  - intros self context Hempty. unfold ContentPortlet.objs.
    by rewrite candidates_take, Hempty, take_nil.
  - intros self rnd Hempty. unfold RandomPortlet.items.
    assert (RandomPortlet.candidates fw self = []) as ->.
    { apply length_zero_iff_nil.
      pose proof (length_candidates_le fw self) as Hle.
      rewrite Hempty in Hle. simpl in Hle. lia. }
    simpl. by rewrite take_nil.
Qed.

Lemma empty_catalog_selects_nothing_witness :
  ContentPortlet.objs (example_framework [page "A" ∅] []) tagged_portlet ∅
    = Ok []
  ∧ RandomPortlet.items (example_framework [page "A" ∅] [])
      (random_portlet "x") no_random = Ok ([], no_random).
Proof.
  split.
  - apply (proj1 (empty_catalog_selects_nothing _)). reflexivity.
  - apply (proj2 (empty_catalog_selects_nothing _)). reflexivity.
Defined.

(** X13. With one and the same non-empty tag string and limit, every
    object ContentPortlet lists is the resolved form of an item
    RandomPortlet shows, whatever the context and the random generator. *)
Theorem tagged_content_within_random fw cp rp context rnd l obj :
  ContentPortlet.tags cp ≠ "" →
  RandomPortlet.tags rp = ContentPortlet.tags cp →
  RandomPortlet.limit rp = ContentPortlet.limit cp →
  ContentPortlet.objs fw cp context = Ok l →
  obj ∈ l →
  ∃ shown rnd',
    RandomPortlet.items fw rp rnd = Ok (shown, rnd')
    ∧ ∃ o, o ∈ shown ∧ obj = get_content_object fw o.
Proof.
  intros Hne Ht Hl Hobjs Hobj.
  assert (RandomPortlet.tags rp ≠ "") as Hne' by congruence.
  destruct (items_shuffled fw rp rnd) as (p & rnd' & Hp & Hi).
  rewrite candidates_tagged in Hp by done.
  eexists _, rnd'. split; [exact Hi|].
  unfold ContentPortlet.objs in Hobjs.
  destruct (loop_elem_of _ _ _ _ _ _ Hobjs Hobj) as [Hnil|(o & Ho & ->)].
  { by apply elem_of_nil in Hnil. }
  exists o. split; [|done].
  rewrite take_ge by (rewrite (Permutation_length Hp), length_take; lia).
  rewrite Hp, Ht, Hl. by rewrite candidates_take in Ho.
Qed.

Lemma tagged_content_within_random_witness :
  ∃ shown rnd',
    RandomPortlet.items (tagged_framework ["B"])
      {| RandomPortlet.id := 14; RandomPortlet.title := "";
         RandomPortlet.limit := 5; RandomPortlet.tags := "x" |} no_random
      = Ok (shown, rnd')
    ∧ ∃ o, o ∈ shown
         ∧ page "A" {["x"]} = get_content_object (tagged_framework ["B"]) o.
Proof.
  apply (tagged_content_within_random (tagged_framework ["B"]) tagged_portlet
           _ (request_for "/") no_random [page "A" {["x"]}]).
  - discriminate.
  - reflexivity.
  - reflexivity.
  - reflexivity.
  - left.
Defined.

(** ** The display strings *)

(** X14. The display string of a stored ContentPortlet or TextPortlet is
    the decimal numeral of its primary key, so it tells two rows of one
    kind apart exactly when their keys differ; title, limit, tags and text
    play no part in it. *)
Theorem unicode_identifies_row :
  (∀ s1 s2,
     ContentPortlet.__unicode__ s1 = ContentPortlet.__unicode__ s2
     ↔ ContentPortlet.id s1 = ContentPortlet.id s2)
  ∧ (∀ s1 s2,
       TextPortlet.__unicode__ s1 = TextPortlet.__unicode__ s2
       ↔ TextPortlet.id s1 = TextPortlet.id s2)
  ∧ ContentPortlet.__unicode__ tagged_portlet = "2"
  ∧ TextPortlet.__unicode__
      {| TextPortlet.id := 1205; TextPortlet.title := "";
         TextPortlet.text := "<b>b</b>" |} = "1205".
Proof.
  split; [|split; [|split; reflexivity]].
  - intros s1 s2. unfold ContentPortlet.__unicode__. split.
    + apply (inj pretty).
    + by intros ->.
  - intros s1 s2. unfold TextPortlet.__unicode__. split.
    + apply (inj pretty).
    + by intros ->.
Qed.

Lemma unicode_identifies_row_witness :
  ContentPortlet.id tagged_portlet = ContentPortlet.id
    {| ContentPortlet.id := 2; ContentPortlet.title := "Other";
       ContentPortlet.limit := 9; ContentPortlet.tags := "" |}
  ∧ ContentPortlet.__unicode__ tagged_portlet = ContentPortlet.__unicode__
      {| ContentPortlet.id := 2; ContentPortlet.title := "Other";
         ContentPortlet.limit := 9; ContentPortlet.tags := "" |}.
Proof.
  split; [reflexivity|].
  apply (proj1 unicode_identifies_row). reflexivity.
Defined.
